(** * preprocess_markdown.py: a shallow embedding and its verification

    The script is eighteen lines of Python: an [argparse] front end
    ([parse_args]), a loop that prints every line of the input file
    ([main]) and a [__main__] guard.  Its behaviour is decided as much by
    what the Python compiler, [argparse.add_argument] and the builtin
    [print] refuse as by its own control flow, so the embedding has three
    layers:

    - the slice of the Python run time the script touches (values, keyword
      arguments, exceptions, the process state, [print], [for]);
    - the slice of the [argparse] library it calls;
    - the script itself, function by function, and the module's top level
      as the compiler sees it.

    Effects are threaded through a state-and-exception monad over the
    process state [World]. *)

From Stdlib Require Import Ascii String.
From stdpp Require Import gmap strings list.

Local Open Scope string_scope.
Local Open Scope list_scope.
Local Open Scope Z_scope.

(** ** Python values, keyword arguments, exceptions *)

(** The line terminator, [chr(10)]. *)
Definition nl : string := String "010"%char EmptyString.

(** An open text file as the script sees it: iterating it yields its lines,
    each with its terminator. *)
Record FileObj := mkFile { f_name : string; f_lines : list string }.

(** The values that occur in the script. *)
Inductive pyval :=
| VNone
| VBool (b : bool)
| VStr (s : string)
| VType_str                      (* the builtin [str], used as [type=str] *)
| VFileType_r                    (* [argparse.FileType('r')] *)
| VFile (f : FileObj).           (* an open file object *)

(** Keyword arguments, in call order. *)
Definition kwargs := list (string * pyval).

Definition kw_mem (k : string) (kw : kwargs) : bool :=
  bool_decide (k ∈ kw.*1).

Definition kw_get (k : string) (kw : kwargs) : option pyval :=
  snd <$> find (λ p, bool_decide (p.1 = k)) kw.

(** The exceptions that can leave the script. *)
Inductive exn :=
| SyntaxError (msg : string)
| TypeError (msg : string)
| AttributeError (msg : string)
| NameError (msg : string)
| ValueError (msg : string)
| IndexError (msg : string)
| SystemExit (code : Z).

Definition exn_name (e : exn) : string :=
  match e with
  | SyntaxError _ => "SyntaxError"
  | TypeError _ => "TypeError"
  | AttributeError _ => "AttributeError"
  | NameError _ => "NameError"
  | ValueError _ => "ValueError"
  | IndexError _ => "IndexError"
  | SystemExit _ => "SystemExit"
  end.

Definition exn_msg (e : exn) : string :=
  match e with
  | SyntaxError m | TypeError m | AttributeError m | NameError m
  | ValueError m | IndexError m => m
  | SystemExit _ => EmptyString
  end.

(** ** The process state *)

(** What the process did on its input side; a ghost log, never read by the
    program. *)
Inductive io_event :=
| EvOpen (path : string)         (* [open(path, 'r')] succeeded *)
| EvReadLine (line : string).    (* the iterator of a file yielded [line] *)

Record World := mkWorld {
  argv : list string;                  (* [sys.argv[1:]] *)
  fs : gmap string (list string);      (* readable files, as lines *)
  stdin : list string;                 (* the lines [sys.stdin] holds at start;
                                          how far they were read is in [trace] *)
  stdout : string;                     (* what was written to [sys.stdout] *)
  stderr : string;                     (* what was written to [sys.stderr],
                                          tracebacks by their last line *)
  trace : list io_event }.

(** A fresh process: nothing written, nothing read. *)
Definition boot (args : list string) (files : gmap string (list string))
    (input : list string) : World :=
  mkWorld args files input EmptyString EmptyString [].

Definition write_stdout (s : string) (w : World) : World :=
  mkWorld (argv w) (fs w) (stdin w) (stdout w +:+ s) (stderr w) (trace w).

Definition write_stderr (s : string) (w : World) : World :=
  mkWorld (argv w) (fs w) (stdin w) (stdout w) (stderr w +:+ s) (trace w).

Definition log_event (e : io_event) (w : World) : World :=
  mkWorld (argv w) (fs w) (stdin w) (stdout w) (stderr w) (trace w ++ [e]).

(** ** The monad: state passing with exceptions *)

Definition M (A : Type) : Type := World → (exn + A) * World.

Definition ret {A} (a : A) : M A := λ w, (inr a, w).

Definition raise {A} (e : exn) : M A := λ w, (inl e, w).

Definition bind {A B} (m : M A) (k : A → M B) : M B :=
  λ w, match m w with
       | (inl e, w') => (inl e, w')
       | (inr a, w') => k a w'
       end.

Definition modify (f : World → World) : M unit := λ w, (inr (), f w).

Definition get_world : M World := λ w, (inr w, w).

Declare Scope py_scope.
Delimit Scope py_scope with py.
Notation "x <- m ;; k" := (bind m (λ x, k))
  (at level 100, m at next level, right associativity) : py_scope.
Notation "m ;; k" := (bind m (λ _, k))
  (at level 100, right associativity) : py_scope.
Local Open Scope py_scope.

(** ** Builtins: [str], [print], [getattr], [for] *)

Definition str (v : pyval) : string :=
  match v with
  | VNone => "None"
  | VBool true => "True"
  | VBool false => "False"
  | VStr s => s
  | VType_str => "<class 'str'>"
  | VFileType_r => "FileType('r')"
  | VFile f => "<file " +:+ f_name f +:+ ">"
  end.

(** The keyword arguments [print] accepts; any other one is refused before
    anything is written. *)
Definition print_keywords : list string := ["sep"; "end"; "file"; "flush"].

Definition text_option (name default : string) (kw : kwargs) : M string :=
  match kw_get name kw with
  | None | Some VNone => ret default
  | Some (VStr s) => ret s
  | Some _ => raise (TypeError (name +:+ " must be None or a string"))
  end.

Definition print_ (objs : list pyval) (kw : kwargs) : M unit :=
  match filter (λ k, k ∉ print_keywords) kw.*1 with
  | k :: _ =>
      raise (TypeError
               ("'" +:+ k +:+ "' is an invalid keyword argument for print()"))
  | [] =>
      sep <- text_option "sep" " " kw ;;
      end_ <- text_option "end" nl kw ;;
      match kw_get "file" kw with
      | None | Some VNone =>
          modify (write_stdout (String.concat sep (str <$> objs) +:+ end_))
      | Some _ => raise (AttributeError "object has no attribute 'write'")
      end
  end.

(** Attribute access on an object given by its attribute list. *)
Definition getattr_ (obj : list (string * pyval)) (name : string) : M pyval :=
  match kw_get name obj with
  | Some v => ret v
  | None =>
      raise (AttributeError ("object has no attribute '" +:+ name +:+ "'"))
  end.

Fixpoint for_each {A} (xs : list A) (body : A → M unit) : M unit :=
  match xs with
  | [] => ret ()
  | x :: xs' => body x ;; for_each xs' body
  end.

Fixpoint chars (s : string) : list string :=
  match s with
  | EmptyString => []
  | String c s' => String c EmptyString :: chars s'
  end.

(** [for x in it: body].  A file yields its lines, a string its
    characters, nothing else here is iterable. *)
Definition for_ (it : pyval) (body : pyval → M unit) : M unit :=
  match it with
  | VFile f =>
      for_each (f_lines f)
        (λ l, modify (log_event (EvReadLine l)) ;; body (VStr l))
  | VStr s => for_each (chars s) (λ c, body (VStr c))
  | _ => raise (TypeError "object is not iterable")
  end.

(** ** The slice of [argparse] the script calls

    A parser whose arguments are positionals with the default [nargs] plus
    the automatic [-h/--help]: what [ArgumentParser(description=...)],
    [add_argument] and [parse_args()] do for it.  The
    object is mutated in place in Python; it is never aliased by the
    script, so here every call returns the updated parser. *)
Module argparse.

Record Action := mkAction {
  dest : string;
  option_strings : list string;
  type_ : pyval;
  help : string;
  required : bool }.

Record ArgumentParser := mkParser {
  description : string;
  actions : list Action }.

Definition Namespace := list (string * pyval).

Definition help_action : Action :=
  mkAction "help" ["-h"; "--help"] VNone
    "show this help message and exit" false.

(** [ArgumentParser(description=d)], with [add_help=True]. *)
Definition new (d : string) : ArgumentParser := mkParser d [help_action].

(** [s[0] in parser.prefix_chars], for the default prefix ["-"] and a
    non-empty [s]; on the empty string [s[0]] raises, see [add_argument]. *)
Definition is_flag (s : string) : bool :=
  match s with
  | String c _ => bool_decide (c = "-"%char)
  | EmptyString => false
  end.

(** [_get_positional_kwargs]: [required] is not the caller's to give. *)
Definition get_positional_kwargs (d : string) (kw : kwargs) : M kwargs :=
  if kw_mem "required" kw
  then raise (TypeError "'required' is an invalid argument for positionals")
  else ret (kw ++ [("required", VBool true); ("dest", VStr d)]).

(** [_get_optional_kwargs]: the destination is the first long option
    without its dashes, or else the first option. *)
Fixpoint lstrip_dashes (s : string) : string :=
  match s with
  | String c s' => if bool_decide (c = "-"%char) then lstrip_dashes s' else s
  | EmptyString => s
  end.

Definition is_long (s : string) : bool :=
  match s with
  | String a (String b _) => bool_decide (a = "-"%char ∧ b = "-"%char)
  | _ => false
  end.

Definition get_optional_kwargs (flags : list string) (kw : kwargs)
  : M kwargs :=
  match filter (λ s, is_flag s = false) flags with
  | EmptyString :: _ => raise (IndexError "string index out of range")
  | s :: _ => raise (ValueError ("invalid option string '" +:+ s +:+ "'"))
  | [] =>
      let d := match filter (λ s, is_long s = true) flags, flags with
               | l :: _, _ => lstrip_dashes l
               | [], f :: _ => lstrip_dashes f
               | [], [] => EmptyString
               end in
      ret (if kw_mem "dest" kw then kw else (kw ++ [("dest", VStr d)]))
  end.

Definition action_of (flags : list string) (kw : kwargs) : Action :=
  mkAction
    (match kw_get "dest" kw with Some (VStr d) => d | _ => EmptyString end)
    flags
    (default VNone (kw_get "type" kw))
    (match kw_get "help" kw with Some (VStr h) => h | _ => EmptyString end)
    (match kw_get "required" kw with Some (VBool b) => b | _ => false end).

(** A [type=] must be callable (or absent); the check is made when the
    argument is declared. *)
Definition callable (v : pyval) : bool :=
  match v with
  | VNone | VType_str | VFileType_r => true
  | VBool _ | VStr _ | VFile _ => false
  end.

Definition add_action (p : ArgumentParser) (flags : list string)
    (kw : kwargs) : M ArgumentParser :=
  if callable (default VNone (kw_get "type" kw))
  then ret (mkParser (description p) (actions p ++ [action_of flags kw]))
  else raise (ValueError
                (str (default VNone (kw_get "type" kw)) +:+ " is not callable")).

(** [parser.add_argument]: [args] are the names or flags, [kw] the
    keyword arguments.  No names, or one name that does not start with a
    dash, declare a positional. *)
Definition add_argument (p : ArgumentParser) (args : list string)
    (kw : kwargs) : M ArgumentParser :=
  match args with
  | [] =>
      match kw_get "dest" kw with
      | Some (VStr d) =>
          kw' <- get_positional_kwargs d
                   (filter (λ e, e.1 ≠ "dest") kw) ;;
          add_action p [] kw'
      | _ => raise (TypeError "missing 1 required positional argument: 'dest'")
      end
  | [EmptyString] => raise (IndexError "string index out of range")
  | [name] =>
      if is_flag name then
        kw' <- get_optional_kwargs args kw ;;
        add_action p args kw'
      else if kw_mem "dest" kw then
        raise (ValueError "dest supplied twice for positional argument")
      else
        kw' <- get_positional_kwargs name kw ;;
        add_action p [] kw'
  | _ =>
      kw' <- get_optional_kwargs args kw ;;
      add_action p args kw'
  end.

Definition positionals (p : ArgumentParser) : list Action :=
  filter (λ a, option_strings a = []) (actions p).

Definition format_usage (p : ArgumentParser) : string :=
  "usage: [-h] " +:+ String.concat " " (dest <$> positionals p) +:+ nl.

Definition format_help (p : ArgumentParser) : string :=
  format_usage p +:+ nl +:+ description p +:+ nl +:+
  String.concat EmptyString
    ((λ a, "  " +:+ dest a +:+ "  " +:+ help a +:+ nl) <$> actions p).

(** [parser.error(message)]: usage and message on [sys.stderr], then
    [sys.exit(2)]. *)
Definition error {A} (p : ArgumentParser) (msg : string) : M A :=
  modify (write_stderr (format_usage p +:+ "error: " +:+ msg +:+ nl)) ;;
  raise (SystemExit 2).

(** The [type=] conversion of one argument string.  [FileType('r')] reads
    ["-"] as [sys.stdin] and opens anything else. *)
Definition get_value (p : ArgumentParser) (a : Action) (s : string)
  : M pyval :=
  match type_ a with
  | VNone | VType_str => ret (VStr s)
  | VFileType_r =>
      w <- get_world ;;
      if bool_decide (s = "-") then ret (VFile (mkFile "<stdin>" (stdin w)))
      else match fs w !! s with
           | Some ls =>
               modify (log_event (EvOpen s)) ;; ret (VFile (mkFile s ls))
           | None =>
               error p ("argument " +:+ dest a +:+ ": can't open '"
                        +:+ s +:+ "'")
           end
  | t => error p ("argument " +:+ dest a +:+ ": " +:+ str t
                  +:+ " is not callable")
  end.

(** One left-to-right pass over the argument strings. *)
Fixpoint consume (p : ArgumentParser) (pos : list Action)
    (args : list string) (ns : Namespace) : M Namespace :=
  match args with
  | [] =>
      match pos with
      | [] => ret ns
      | _ => error p ("the following arguments are required: "
                      +:+ String.concat ", " (dest <$> pos))
      end
  | s :: rest =>
      if bool_decide (s ∈ option_strings help_action) then
        modify (write_stdout (format_help p)) ;; raise (SystemExit 0)
      else if is_flag s && negb (bool_decide (s = "-")) then
        error p ("unrecognized arguments: " +:+ s)
      else match pos with
           | [] => error p ("unrecognized arguments: " +:+ s)
           | a :: pos' =>
               v <- get_value p a s ;;
               consume p pos' rest (ns ++ [(dest a, v)])
           end
  end.

(** [parser.parse_args()], on [sys.argv[1:]]. *)
Definition parse_args (p : ArgumentParser) : M Namespace :=
  w <- get_world ;;
  consume p (positionals p) (argv w) [].

End argparse.

(** ** The script: [parse_args] and [main] *)

(** [def parse_args()]: build the parser, declare [input_file] and [path],
    parse [sys.argv]. *)
Definition parse_args : M argparse.Namespace :=
  let parser :=
    argparse.new "preprocess markdown to include code files." in
  parser <- argparse.add_argument parser ["input_file"]
              [("type", VFileType_r); ("help", VStr "markdown file.");
               ("required", VBool true)] ;;
  parser <- argparse.add_argument parser ["path"]
              [("type", VType_str);
               ("help", VStr "Search path for include files.")] ;;
  argparse.parse_args parser.

(** The two lines of [main] after [args = parse_args()]. *)
Definition main_body (args : argparse.Namespace) : M unit :=
  input_file <- getattr_ args "input_file" ;;
  for_ input_file (λ line, print_ [line] [("eol", VStr EmptyString)]).

(** [def main()] *)
Definition main : M unit :=
  args <- parse_args ;;
  main_body args.

(** ** The module's top level

    The compiler sees the whole file before any of it runs.  Function
    bodies are scopes of their own (embedded above); what matters at the
    top level is which statements sit outside every function. *)
Inductive simple_stmt :=
| Return (callee : string)       (* [return f()] *)
| Expr (callee : string).        (* [f()] *)

Inductive stmt :=
| ImportFrom (module : string) (names : list string)
| Import (module : string)
| FunctionDef (name : string)
| If_name_main (body : list simple_stmt).

(** preprocess_markdown.py, statement by statement. *)
Definition preprocess_markdown : list stmt :=
  [ ImportFrom "__future__" ["print_function"; "with_statement"; "division"];
    Import "argparse";
    FunctionDef "parse_args";
    FunctionDef "main";
    If_name_main [Return "main"] ].

Definition is_return (s : simple_stmt) : bool :=
  match s with Return _ => true | Expr _ => false end.

Definition return_outside_function (s : stmt) : bool :=
  match s with
  | If_name_main body => existsb is_return body
  | _ => false
  end.

(** Compilation refuses a [return] that is in no function. *)
Definition compile (m : list stmt) : exn + list stmt :=
  if existsb return_outside_function m
  then inl (SyntaxError "'return' outside function")
  else inr m.

(** The functions the file defines, by name. *)
Definition function_body (f : string) : option (M unit) :=
  if bool_decide (f = "parse_args") then Some (parse_args ;; ret ())
  else if bool_decide (f = "main") then Some main
  else None.

Definition call (defined : list string) (f : string) : M unit :=
  match function_body f with
  | Some body => if bool_decide (f ∈ defined) then body
                 else raise (NameError ("name '" +:+ f +:+ "' is not defined"))
  | None => raise (NameError ("name '" +:+ f +:+ "' is not defined"))
  end.

Definition exec_simple (defined : list string) (s : simple_stmt) : M unit :=
  match s with
  | Expr f => call defined f
  | Return _ => raise (SyntaxError "'return' outside function")
  end.

(** Running the compiled module as [__main__]: imports and definitions bind
    names, the guard's body runs. *)
Fixpoint exec_module (m : list stmt) (defined : list string) : M unit :=
  match m with
  | [] => ret ()
  | ImportFrom _ _ :: m' | Import _ :: m' => exec_module m' defined
  | FunctionDef f :: m' => exec_module m' (f :: defined)
  | If_name_main body :: m' =>
      for_each body (exec_simple defined) ;; exec_module m' defined
  end.

(** What the shell sees of one run. *)
Record Outcome := mkOutcome {
  exit_code : Z;
  uncaught : option exn;
  final : World }.

(** The last line of the interpreter's report of an uncaught exception.
    The lines before it name the script's path, the line and its text; they
    depend on how the interpreter was started and are not modelled, so
    nothing below is stated of the exact content of [stderr]. *)
Definition report (e : exn) : string :=
  exn_name e +:+ ": " +:+ exn_msg e +:+ nl.

(** [python preprocess_markdown.py argv...]: compile, run; an uncaught
    exception is reported on [sys.stderr] (see [report]) and the exit
    status is 1, unless it is [SystemExit], which carries its own
    status. *)
Definition run (m : list stmt) (w : World) : Outcome :=
  match compile m with
  | inl e => mkOutcome 1 (Some e) (write_stderr (report e) w)
  | inr code =>
      match exec_module code [] w with
      | (inr _, w') => mkOutcome 0 None w'
      | (inl (SystemExit c), w') => mkOutcome c (Some (SystemExit c)) w'
      | (inl e, w') => mkOutcome 1 (Some e) (write_stderr (report e) w')
      end
  end.

Definition run_script (w : World) : Outcome := run preprocess_markdown w.

(** ** The vocabulary of the specification *)

(** The document a run is given: the file named by the first argument,
    [sys.stdin] for ["-"]. *)
Definition input_document (w : World) : list string :=
  match argv w with
  | p :: _ => if bool_decide (p = "-") then stdin w
              else default [] (fs w !! p)
  | [] => []
  end.

(** The search path: the second argument. *)
Definition search_path (w : World) : string :=
  default EmptyString (argv w !! 1%nat).

(** A document as one text. *)
Definition text (doc : list string) : string :=
  String.concat EmptyString doc.

(** What a run wrote to [sys.stdout] when started in a fresh process. *)
Definition output (args : list string) (files : gmap string (list string))
    (input : list string) : string :=
  stdout (final (run_script (boot args files input))).

(** The lines a run read from its input, in the order it read them. *)
Definition lines_read (t : list io_event) : list string :=
  omap (λ e, match e with EvReadLine l => Some l | EvOpen _ => None end) t.

(** The references of a document's include directives, for a directive
    syntax given as a recogniser of lines.  The source defines no such
    syntax; the statements below hold for every one. *)
Definition directives (directive : string → option string)
    (doc : list string) : list string :=
  omap directive doc.

(** Modelled from the spec: the source never resolves a reference; the
    specification resolves it by joining it with the search path. *)
Definition resolve (sp ref : string) : string := sp +:+ "/" +:+ ref.

Definition rstrip_nl (s : string) : string :=
  let n := String.length s in
  if bool_decide (String.substring (n - 1)%nat 1 s = nl)
  then String.substring 0 (n - 1)%nat s else s.

(** Modelled from the spec: the source has no directive syntax; this is the
    one of the specification's example, an opening fence such as
    [```py:include=foo.py], whose info string carries [:include=] and then
    the path. *)
Definition fence_include (line : string) : option string :=
  if String.prefix "```" line then
    match String.index 0 ":include=" line with
    | Some n =>
        Some (rstrip_nl (String.substring (n + 9)%nat
                           (String.length line - (n + 9))%nat line))
    | None => None
    end
  else None.

(** The outputs of [n] runs in a row on the same arguments and input, each
    in a fresh process over the files the previous run left behind. *)
Fixpoint rerun (n : nat) (args : list string)
    (files : gmap string (list string)) (input : list string)
  : list string :=
  match n with
  | O => []
  | S n' =>
      let r := run_script (boot args files input) in
      stdout (final r) :: rerun n' args (fs (final r)) input
  end.

(** ** Sample inputs *)

(** A one-heading document. *)
Definition title_doc : list string := ["# Title" +:+ nl].

(** A document of plain markdown lines. *)
Definition notes_doc : list string :=
  ["# Notes" +:+ nl; nl; "Plain text." +:+ nl].

(** The document of the specification's example. *)
Definition include_doc : list string :=
  ["# Title" +:+ nl; nl; "```py:include=foo.py" +:+ nl; "```" +:+ nl].

Definition foo_py : list string := ["print(1)" +:+ nl].

Definition title_files : gmap string (list string) :=
  {[ "doc.md" := title_doc ]}.

Definition notes_files : gmap string (list string) :=
  {[ "notes.md" := notes_doc ]}.

(** The example's files: the document, and [foo.py] under [src]. *)
Definition include_files : gmap string (list string) :=
  {[ "doc.md" := include_doc; "src/foo.py" := foo_py ]}.

(** The same document with nothing under [src]. *)
Definition missing_files : gmap string (list string) :=
  {[ "doc.md" := include_doc ]}.

(** The arguments [main] would hold had [parse_args] returned them. *)
Definition parsed (name : string) (doc : list string) (sp : string)
  : argparse.Namespace :=
  [("input_file", VFile (mkFile name doc)); ("path", VStr sp)].

(** What the shell and the user see of a run. *)
Definition observed (r : Outcome) : Z * option exn * string * string :=
  (exit_code r, uncaught r, stdout (final r), stderr (final r)).

(** The three refusals the script runs into, in CPython 3's words. *)
Definition eol_refused : exn :=
  TypeError "'eol' is an invalid keyword argument for print()".

Definition required_refused : exn :=
  TypeError "'required' is an invalid argument for positionals".

Definition return_refused : exn :=
  SyntaxError "'return' outside function".

(** * Verification *)

(** ** What each layer refuses *)

Lemma bind_raise {A B} (m : M A) (k : A → M B) (e : exn) (w w' : World) :
  m w = (inl e, w') → bind m k w = (inl e, w').
Proof. intros H. unfold bind. by rewrite H. Qed.

Lemma bind_ret {A B} (m : M A) (k : A → M B) (a : A) (w w' : World) :
  m w = (inr a, w') → bind m k w = k a w'.
Proof. intros H. unfold bind. by rewrite H. Qed.

(** The first failing statement of a loop body ends the loop. *)
Lemma for_each_raise {A} (x : A) (xs : list A) (body : A → M unit)
    (e : exn) (w w' : World) :
  body x w = (inl e, w') → for_each (x :: xs) body w = (inl e, w').
Proof. intros H. simpl. by apply bind_raise. Qed.

(** [print] with a keyword it does not know raises before it writes. *)
Lemma print_refuses_keyword (objs : list pyval) (kw : kwargs) (k : string)
    (w : World) :
  k ∈ (kw.*1) → k ∉ print_keywords →
  ∃ k' : string, (k' ∉ print_keywords) ∧
        print_ objs kw w
        = (inl (TypeError ("'" +:+ k'
                           +:+ "' is an invalid keyword argument for print()")),
           w).
Proof.
  intros Hk Hbad. unfold print_.
  assert (k ∈ filter (λ k, k ∉ print_keywords) kw.*1) as Hin
      by (by apply list_elem_of_filter).
  destruct (filter (λ k, k ∉ print_keywords) kw.*1) as [|k' ks] eqn:Hf.
  - by apply elem_of_nil in Hin.
  - exists k'. split; [| done].
    assert (k' ∈ filter (λ k, k ∉ print_keywords) kw.*1) as Hk'
        by (rewrite Hf; left).
    by apply list_elem_of_filter in Hk' as [? _].
Qed.

(** [print(line, eol='')] writes nothing, whatever the line. *)
Lemma print_eol_raises (v : pyval) (w : World) :
  print_ [v] [("eol", VStr EmptyString)] w = (inl eol_refused, w).
Proof. reflexivity. Qed.

(** [add_argument] refuses [required] on every positional. *)
Lemma positional_required_refused (p : argparse.ArgumentParser)
    (name : string) (kw : kwargs) (w : World) :
  name ≠ EmptyString →
  argparse.is_flag name = false →
  kw_mem "dest" kw = false →
  kw_mem "required" kw = true →
  argparse.add_argument p [name] kw w = (inl required_refused, w).
Proof.
  intros Hname Hflag Hdest Hreq. unfold argparse.add_argument.
  destruct name as [|c name]; [done |].
  rewrite Hflag, Hdest. apply bind_raise.
  unfold argparse.get_positional_kwargs. by rewrite Hreq.
Qed.

Lemma parse_args_raises (w : World) :
  parse_args w = (inl required_refused, w).
Proof.
  unfold parse_args. apply bind_raise.
  by apply positional_required_refused.
Qed.

Lemma main_raises (w : World) : main w = (inl required_refused, w).
Proof. unfold main. apply bind_raise, parse_args_raises. Qed.

Lemma existsb_elem {A} (f : A → bool) (l : list A) (x : A) :
  x ∈ l → f x = true → existsb f l = true.
Proof.
  intros Hin Hf. apply existsb_exists. exists x.
  split; [by apply list_elem_of_In | done].
Qed.

(** A module with a [return] in its [__main__] guard does not compile. *)
Lemma compile_refuses_return (m : list stmt) (body : list simple_stmt)
    (f : string) :
  If_name_main body ∈ m → Return f ∈ body → compile m = inl return_refused.
Proof.
  intros Hm Hbody. unfold compile.
  rewrite (existsb_elem return_outside_function m (If_name_main body)); [done..|].
  simpl. by apply (existsb_elem is_return body (Return f)).
Qed.

(** A module that does not compile does not run. *)
Lemma run_refused (m : list stmt) (e : exn) (w : World) :
  compile m = inl e →
  run m w = mkOutcome 1 (Some e) (write_stderr (report e) w).
Proof. intros H. unfold run. by rewrite H. Qed.

Lemma script_refused : compile preprocess_markdown = inl return_refused.
Proof.
  apply (compile_refuses_return _ [Return "main"] "main");
    unfold preprocess_markdown; set_solver.
Qed.

Lemma run_script_outcome (w : World) :
  run_script w
  = mkOutcome 1 (Some return_refused) (write_stderr (report return_refused) w).
Proof. apply run_refused, script_refused. Qed.

Lemma output_empty args files input : output args files input = EmptyString.
Proof. unfold output. by rewrite run_script_outcome. Qed.

(** ** The loop of [main] *)

Lemma append_nil_r (s : string) : s +:+ EmptyString = s.
Proof.
  induction s as [|c s IH]; [done |].
  change (String c (s +:+ EmptyString) = String c s). by f_equal.
Qed.

Lemma append_assoc (s t u : string) : (s +:+ t) +:+ u = s +:+ (t +:+ u).
Proof.
  induction s as [|c s IH]; [done |].
  change (String c ((s +:+ t) +:+ u) = String c (s +:+ (t +:+ u))).
  by f_equal.
Qed.

Lemma text_cons (l : string) (ls : list string) :
  text (l :: ls) = l +:+ text ls.
Proof.
  unfold text. destruct ls as [|l' ls]; simpl; [by rewrite append_nil_r | done].
Qed.

Lemma text_blank (n : nat) : text (replicate n EmptyString) = EmptyString.
Proof. induction n as [|n IH]; [done |]. simpl replicate. by rewrite text_cons. Qed.

Lemma blank_chunks (doc : list string) :
  Forall2 (λ line chunk, chunk = EmptyString ∨ chunk = line)
    doc (replicate (length doc) EmptyString).
Proof. induction doc as [|l ls IH]; simpl; constructor; auto. Qed.

(** On an open file the loop stops at the first line, which it has read
    and not written; on an empty file it runs to its end. *)
Lemma main_body_file (args : argparse.Namespace) (f : FileObj) (w : World) :
  kw_get "input_file" args = Some (VFile f) →
  main_body args w
  = match f_lines f with
    | [] => (inr (), w)
    | l :: _ => (inl eol_refused, log_event (EvReadLine l) w)
    end.
Proof.
  intros Hf. unfold main_body, getattr_. rewrite Hf.
  unfold bind at 1, ret. simpl for_.
  destruct (f_lines f) as [|l ls]; [done |].
  apply for_each_raise. unfold bind, modify. by rewrite print_eol_raises.
Qed.

(** Whatever the arguments are, the loop writes nothing. *)
Lemma main_body_stdout (args : argparse.Namespace) (w : World) :
  stdout (main_body args w).2 = stdout w.
Proof.
  destruct (kw_get "input_file" args) as [v|] eqn:Hv.
  - destruct v as [| b | s | | | f];
      try (unfold main_body, getattr_; rewrite Hv; done).
    + unfold main_body, getattr_. rewrite Hv. unfold bind at 1, ret.
      simpl for_. destruct (chars s) as [|c cs]; [done |].
      by rewrite (for_each_raise c cs
                    (λ c, print_ [VStr c] [("eol", VStr EmptyString)])
                    eol_refused w w (print_eol_raises (VStr c) w)).
    + rewrite (main_body_file args f w Hv). by destruct (f_lines f).
  - unfold main_body, getattr_. by rewrite Hv.
Qed.

(** [print] of one line either refuses its keywords, writing nothing, or
    writes the line and a terminator that depends on the keywords only. *)
Lemma print_line_shape (kw : kwargs) :
  (∃ e, ∀ l w, print_ [VStr l] kw w = (inl e, w)) ∨
  (∃ end_, ∀ l w, print_ [VStr l] kw w = (inr (), write_stdout (l +:+ end_) w)).
Proof.
  unfold print_.
  destruct (filter _ kw.*1) as [|k ks]; [| left; eauto].
  unfold text_option.
  destruct (kw_get "sep" kw) as [[]|], (kw_get "end" kw) as [[]|],
    (kw_get "file" kw) as [[]|];
    first [ left; eexists; intros; reflexivity
          | right; eexists; intros; reflexivity ].
Qed.

(** The order of the output is the order of the input for every choice of
    keywords in the [print] call: the loop writes a prefix of the lines,
    each followed by the same terminator. *)
Lemma print_loop_in_order (kw : kwargs) (f : FileObj) (w : World) :
  ∃ (k : nat) (end_ : string),
    stdout (for_ (VFile f) (λ line, print_ [line] kw) w).2
    = stdout w +:+ text ((λ l, l +:+ end_) <$> take k (f_lines f)).
Proof.
  simpl for_. destruct (print_line_shape kw) as [[e He] | [end_ He]].
  - exists 0%nat, EmptyString. rewrite take_0. simpl.
    rewrite append_nil_r.
    destruct (f_lines f) as [|l ls]; [done |].
    rewrite (for_each_raise l ls _ e w (log_event (EvReadLine l) w));
      [done |].
    unfold bind, modify. by rewrite He.
  - exists (length (f_lines f)), end_. rewrite firstn_all.
    generalize (f_lines f) w. clear f w.
    induction l as [|l ls IH]; intros w.
    + simpl. by rewrite append_nil_r.
    + simpl for_each. unfold bind at 1. unfold bind at 1. unfold modify at 1.
      rewrite He. rewrite IH. simpl stdout.
      rewrite fmap_cons, text_cons. by rewrite !append_assoc.
Qed.

Lemma run_script_keeps_files (w : World) : fs (final (run_script w)) = fs w.
Proof. by rewrite run_script_outcome. Qed.

Lemma run_script_opens_nothing (w : World) :
  trace (final (run_script w)) = trace w.
Proof. by rewrite run_script_outcome. Qed.

(** ** The claims about what the script refuses *)

(** C3. For every invocation the script fails before it processes any
    input: [return main()] stands outside every function, so compiling the
    file raises [SyntaxError]; the run exits with status 1, writes nothing
    to standard output, opens no file and reads no line, whatever the
    arguments and the input. *)
Theorem script_load_raises_syntax_error (w : World) :
  compile preprocess_markdown = inl return_refused ∧
  uncaught (run_script w) = Some return_refused ∧
  exit_code (run_script w) = 1 ∧
  stdout (final (run_script w)) = stdout w ∧
  trace (final (run_script w)) = trace w.
Proof.
  split; [exact script_refused |].
  unfold run_script.
  by rewrite (run_refused preprocess_markdown return_refused w script_refused).
Qed.

(** C10. For every argument vector [parse_args] raises [TypeError]:
    [add_argument] refuses [required=True] on the positional [input_file].
    The process state is left as it was, so no input file has been opened
    and the parser's own [parse_args] is never reached. *)
Theorem parse_args_raises_type_error (w : World) :
  argparse.add_argument
    (argparse.new "preprocess markdown to include code files.")
    ["input_file"]
    [("type", VFileType_r); ("help", VStr "markdown file.");
     ("required", VBool true)] w
  = (inl required_refused, w) ∧
  parse_args w = (inl required_refused, w) ∧
  trace (parse_args w).2 = trace w.
Proof.
  split; [by apply positional_required_refused |].
  by rewrite parse_args_raises.
Qed.

(** C9. Were the body of [main] executed on a non-empty document, the loop
    raises [TypeError] on the first line, because [print] has no keyword
    [eol]: that line has been read and nothing has been written to standard
    output. *)
Theorem echo_loop_raises_on_first_line (args : argparse.Namespace)
    (f : FileObj) (l : string) (ls : list string) (w : World) :
  kw_get "input_file" args = Some (VFile f) →
  f_lines f = l :: ls →
  main_body args w = (inl eol_refused, log_event (EvReadLine l) w) ∧
  lines_read (trace (main_body args w).2) = lines_read (trace w) ++ [l] ∧
  stdout (main_body args w).2 = stdout w.
Proof.
  intros Hf Hl. rewrite (main_body_file args f w Hf), Hl. simpl.
  split_and!; [done | | done].
  unfold lines_read. by rewrite omap_app.
Qed.

Lemma echo_loop_raises_on_first_line_witness :
  kw_get "input_file" (parsed "doc.md" title_doc ".")
  = Some (VFile (mkFile "doc.md" title_doc)) ∧
  f_lines (mkFile "doc.md" title_doc) = ("# Title" +:+ nl) :: [] ∧
  main_body (parsed "doc.md" title_doc ".")
    (boot ["doc.md"; "."] title_files [])
  = (inl eol_refused,
     log_event (EvReadLine ("# Title" +:+ nl))
       (boot ["doc.md"; "."] title_files [])) ∧
  lines_read (trace (main_body (parsed "doc.md" title_doc ".")
                       (boot ["doc.md"; "."] title_files [])).2)
  = lines_read (trace (boot ["doc.md"; "."] title_files []))
    ++ ["# Title" +:+ nl] ∧
  stdout (main_body (parsed "doc.md" title_doc ".")
            (boot ["doc.md"; "."] title_files [])).2
  = stdout (boot ["doc.md"; "."] title_files []).
Proof.
  split; [reflexivity |]. split; [reflexivity |].
  apply (echo_loop_raises_on_first_line
           (parsed "doc.md" title_doc ".") (mkFile "doc.md" title_doc)
           ("# Title" +:+ nl) [] (boot ["doc.md"; "."] title_files []));
    reflexivity.
Defined.

(** ** The claims about the echo *)

(** C1. The program is meant to echo every input line to standard output
    unchanged.  On the one-heading document it writes nothing: the run
    ends in the compiler's [SyntaxError] with standard output empty, while
    the document is one line long.  Behind the compiler's refusal stand two
    more: [main] on this input ends in [parse_args], and the loop of [main]
    on the arguments [parse_args] was to return ends at the first [print];
    neither writes the line. *)
Theorem title_document_not_echoed :
  input_document (boot ["doc.md"; "."] title_files []) = title_doc ∧
  uncaught (run_script (boot ["doc.md"; "."] title_files []))
  = Some return_refused ∧
  output ["doc.md"; "."] title_files [] = EmptyString ∧
  output ["doc.md"; "."] title_files [] ≠ text title_doc ∧
  main (boot ["doc.md"; "."] title_files [])
  = (inl required_refused, boot ["doc.md"; "."] title_files []) ∧
  (main_body (parsed "doc.md" title_doc ".")
     (boot ["doc.md"; "."] title_files [])).1 = inl eol_refused ∧
  stdout (main_body (parsed "doc.md" title_doc ".")
            (boot ["doc.md"; "."] title_files [])).2 = EmptyString.
Proof. split_and!; done. Qed.

(** C2. A document without include directives is meant to come out
    verbatim.  The three plain lines of [notes_doc] hold no directive, and
    the run on them writes nothing. *)
Theorem plain_document_not_reproduced :
  input_document (boot ["notes.md"; "."] notes_files []) = notes_doc ∧
  directives fence_include notes_doc = [] ∧
  output ["notes.md"; "."] notes_files [] = EmptyString ∧
  output ["notes.md"; "."] notes_files [] ≠ text notes_doc.
Proof. split_and!; done. Qed.

(** C8. The run is meant to end after one complete pass over the input
    lines.  It does end, but without the pass: on [notes_doc] the run stops
    in the compiler with none of the three lines read, and the loop of
    [main], were it reached, stops with an exception on the first. *)
Theorem pass_over_input_not_completed :
  input_document (boot ["notes.md"; "."] notes_files []) = notes_doc ∧
  uncaught (run_script (boot ["notes.md"; "."] notes_files []))
  = Some return_refused ∧
  lines_read (trace (final (run_script (boot ["notes.md"; "."] notes_files []))))
  = [] ∧
  (main_body (parsed "notes.md" notes_doc ".")
     (boot ["notes.md"; "."] notes_files [])).1 = inl eol_refused ∧
  lines_read (trace (main_body (parsed "notes.md" notes_doc ".")
                       (boot ["notes.md"; "."] notes_files [])).2)
  = ["# Notes" +:+ nl].
Proof. split_and!; done. Qed.

(** C6. For every input, each input line contributes nothing or itself to
    standard output, and the contributions appear in the order of the
    lines: the output is never a reordering of the input.  This holds of a
    run of the script and of the loop of [main] on any open file. *)
Theorem output_keeps_line_order (args : list string)
    (files : gmap string (list string)) (input : list string) :
  (∃ chunks : list string,
     Forall2 (λ line chunk, chunk = EmptyString ∨ chunk = line)
       (input_document (boot args files input)) chunks ∧
     output args files input = text chunks) ∧
  (∀ (f : FileObj) (sp : string) (w : World),
     ∃ chunks : list string,
       Forall2 (λ line chunk, chunk = EmptyString ∨ chunk = line)
         (f_lines f) chunks ∧
       stdout (main_body (parsed (f_name f) (f_lines f) sp) w).2
       = stdout w +:+ text chunks).
Proof.
  split; [| intros f sp w].
  - exists (replicate (length (input_document (boot args files input)))
              EmptyString).
    split; [apply blank_chunks | by rewrite output_empty, text_blank].
  - exists (replicate (length (f_lines f)) EmptyString).
    split; [apply blank_chunks |].
    by rewrite main_body_stdout, text_blank, append_nil_r.
Qed.

(** ** The claims about include directives

    The script has no notion of a directive.  The statements are made for
    an arbitrary recogniser [directive] of directive lines, and tried on
    the syntax of the specification's example. *)
Section AnyDirectiveSyntax.

Variable directive : string → option string.

(** C4, as the code has it.  On a document with exactly one include
    directive whose file exists under the search path no substitution is
    made: the run opens no file but the input document, and what reaches
    standard output is a prefix of the input's lines, unchanged and in
    order. *)
Theorem include_never_expanded (args : list string)
    (files : gmap string (list string)) (input : list string)
    (ref : string) :
  directives directive (input_document (boot args files input)) = [ref] →
  is_Some (files !! resolve (search_path (boot args files input)) ref) →
  (∀ p, EvOpen p ∈ trace (final (run_script (boot args files input))) →
        args !! 0%nat = Some p) ∧
  ∃ k : nat,
    output args files input
    = text (take k (input_document (boot args files input))).
Proof.
  intros _ _. split.
  - intros p. rewrite run_script_opens_nothing. simpl. by intros ?%elem_of_nil.
  - exists 0%nat. by rewrite output_empty, take_0.
Qed.

(** C5, as the code has it.  On an input with an include directive whose
    file is missing under the search path the run fails, writes nothing to
    standard output and exits with a non-zero status; but the file is never
    looked up, so the failure is no [ReferenceNotFound] with a line number
    and a path: exit status, exception, standard output and standard error
    are those of the run when the file exists, whatever it holds. *)
Theorem missing_include_not_looked_up (args : list string)
    (files : gmap string (list string)) (input : list string)
    (ref : string) (content : list string) :
  ref ∈ directives directive (input_document (boot args files input)) →
  files !! resolve (search_path (boot args files input)) ref = None →
  is_Some (uncaught (run_script (boot args files input))) ∧
  output args files input = EmptyString ∧
  exit_code (run_script (boot args files input)) ≠ 0 ∧
  observed (run_script
              (boot args
                 (<[resolve (search_path (boot args files input)) ref
                    := content]> files) input))
  = observed (run_script (boot args files input)).
Proof.
  intros _ _. rewrite output_empty, !run_script_outcome. simpl.
  split_and!; [by eexists | done | done | done].
Qed.

(** C7. On an input without include directives the output is a function
    of the input: any number of runs in a row on the same arguments and
    input give the same output every time, and the files and the standard
    input bear on the output through the document only. *)
Theorem rerun_gives_same_output (n : nat) (args : list string)
    (files files' : gmap string (list string)) (input input' : list string) :
  directives directive (input_document (boot args files input)) = [] →
  input_document (boot args files' input')
  = input_document (boot args files input) →
  Forall (λ out, out = output args files input) (rerun n args files input) ∧
  output args files' input' = output args files input.
Proof.
  intros _ _. split; [| by rewrite !output_empty].
  induction n as [|n IH]; [constructor |].
  change (rerun (S n) args files input)
    with (output args files input
          :: rerun n args (fs (final (run_script (boot args files input))))
               input).
  rewrite run_script_keeps_files. constructor; [done | exact IH].
Qed.

End AnyDirectiveSyntax.

(** The document of the specification's example, with [foo.py] in place:
    the run does not produce the text of the example, with whatever line
    for the opening fence. *)
Lemma include_example_not_expanded :
  directives fence_include
    (input_document (boot ["doc.md"; "src"] include_files []))
  = ["foo.py"] ∧
  include_files
    !! resolve (search_path (boot ["doc.md"; "src"] include_files [])) "foo.py"
  = Some foo_py ∧
  ¬ ∃ fence : string,
      output ["doc.md"; "src"] include_files []
      = text ["# Title" +:+ nl; nl; fence; "print(1)" +:+ nl; "```" +:+ nl].
Proof.
  split_and!; [done | done |].
  intros [fence H]. rewrite output_empty in H. cbv in H. discriminate H.
Qed.

Lemma include_never_expanded_witness :
  directives fence_include
    (input_document (boot ["doc.md"; "src"] include_files []))
  = ["foo.py"] ∧
  is_Some (include_files
             !! resolve (search_path (boot ["doc.md"; "src"] include_files []))
                  "foo.py") ∧
  (∀ p, EvOpen p
        ∈ trace (final (run_script (boot ["doc.md"; "src"] include_files [])))
        → ["doc.md"; "src"] !! 0%nat = Some p) ∧
  ∃ k : nat,
    output ["doc.md"; "src"] include_files []
    = text (take k (input_document (boot ["doc.md"; "src"] include_files []))).
Proof.
  split; [reflexivity |]. split; [by eexists |].
  apply (include_never_expanded fence_include
           ["doc.md"; "src"] include_files [] "foo.py");
    [reflexivity | by eexists].
Defined.

(** The same document with no [foo.py]: the run ends in the compiler's
    [SyntaxError], as it does with [foo.py] in place, and in no
    [ReferenceNotFound]. *)
Lemma missing_include_not_reported :
  directives fence_include
    (input_document (boot ["doc.md"; "src"] missing_files []))
  = ["foo.py"] ∧
  missing_files
    !! resolve (search_path (boot ["doc.md"; "src"] missing_files [])) "foo.py"
  = None ∧
  uncaught (run_script (boot ["doc.md"; "src"] missing_files []))
  = Some (SyntaxError "'return' outside function") ∧
  uncaught (run_script (boot ["doc.md"; "src"] include_files []))
  = uncaught (run_script (boot ["doc.md"; "src"] missing_files [])) ∧
  ¬ ∃ e, uncaught (run_script (boot ["doc.md"; "src"] missing_files []))
         = Some e ∧ exn_name e = "ReferenceNotFound".
Proof.
  split_and!; [done | done | done | done |].
  intros [e [He Hn]]. rewrite run_script_outcome in He. simpl in He.
  injection He as <-. discriminate Hn.
Qed.

Lemma missing_include_not_looked_up_witness :
  "foo.py" ∈ directives fence_include
               (input_document (boot ["doc.md"; "src"] missing_files [])) ∧
  missing_files
    !! resolve (search_path (boot ["doc.md"; "src"] missing_files [])) "foo.py"
  = None ∧
  is_Some (uncaught (run_script (boot ["doc.md"; "src"] missing_files []))) ∧
  output ["doc.md"; "src"] missing_files [] = EmptyString ∧
  exit_code (run_script (boot ["doc.md"; "src"] missing_files [])) ≠ 0 ∧
  observed (run_script
              (boot ["doc.md"; "src"]
                 (<[resolve (search_path (boot ["doc.md"; "src"] missing_files []))
                      "foo.py" := foo_py]> missing_files) []))
  = observed (run_script (boot ["doc.md"; "src"] missing_files [])).
Proof.
  assert ("foo.py" ∈ directives fence_include
            (input_document (boot ["doc.md"; "src"] missing_files [])))
    as Hin by (vm_compute; left).
  split; [exact Hin |]. split; [reflexivity |].
  apply (missing_include_not_looked_up fence_include
           ["doc.md"; "src"] missing_files [] "foo.py" foo_py);
    [exact Hin | reflexivity].
Defined.

Lemma rerun_gives_same_output_witness :
  directives fence_include
    (input_document (boot ["notes.md"; "."] notes_files []))
  = [] ∧
  input_document
    (boot ["notes.md"; "."] (<["doc.md" := title_doc]> notes_files)
       ["unread" +:+ nl])
  = input_document (boot ["notes.md"; "."] notes_files []) ∧
  Forall (λ out, out = output ["notes.md"; "."] notes_files [])
    (rerun 3 ["notes.md"; "."] notes_files []) ∧
  output ["notes.md"; "."] (<["doc.md" := title_doc]> notes_files)
    ["unread" +:+ nl]
  = output ["notes.md"; "."] notes_files [].
Proof.
  split; [reflexivity |]. split; [reflexivity |].
  apply (rerun_gives_same_output fence_include 3 ["notes.md"; "."]
           notes_files (<["doc.md" := title_doc]> notes_files)
           [] ["unread" +:+ nl]);
    reflexivity.
Defined.

(** ** Further properties of the script *)

Lemma main_body_state (args : argparse.Namespace) (w : World) :
  (main_body args w).2 = w ∨
  ∃ l : string, (main_body args w).2 = log_event (EvReadLine l) w.
Proof.
  destruct (kw_get "input_file" args) as [v|] eqn:Hv.
  - destruct v as [| b | s | | | f];
      try (left; unfold main_body, getattr_; rewrite Hv; done).
    + left. unfold main_body, getattr_. rewrite Hv. unfold bind at 1, ret.
      simpl for_. destruct (chars s) as [|c cs]; [done |].
      by rewrite (for_each_raise c cs
                    (λ c, print_ [VStr c] [("eol", VStr EmptyString)])
                    eol_refused w w (print_eol_raises (VStr c) w)).
    + rewrite (main_body_file args f w Hv).
      destruct (f_lines f) as [|l ls]; [by left | right; by exists l].
  - left. unfold main_body, getattr_. by rewrite Hv.
Qed.

(** X1. [main] never reaches its loop: for every process state it ends in
    the [TypeError] of [parse_args], with the state as it was, so no file
    has been opened and no line read; its outcome is not the one the loop
    has on any parsed arguments. *)
Theorem main_stops_in_parse_args (w : World) :
  main w = (inl required_refused, w) ∧
  (∀ args : argparse.Namespace,
     kw_get "input_file" args ≠ None → main w ≠ main_body args w).
Proof.
  split; [apply main_raises |].
  intros args Hargs. rewrite main_raises.
  destruct (kw_get "input_file" args) as [v|] eqn:Hv; [| done].
  destruct v as [| b | s | | | f];
    try (unfold main_body, getattr_; rewrite Hv; discriminate).
  - unfold main_body, getattr_. rewrite Hv. unfold bind at 1, ret.
    simpl for_. destruct (chars s) as [|c cs]; [discriminate |].
    rewrite (for_each_raise c cs
               (λ c, print_ [VStr c] [("eol", VStr EmptyString)])
               eol_refused w w (print_eol_raises (VStr c) w)).
    discriminate.
  - rewrite (main_body_file args f w Hv).
    destruct (f_lines f); discriminate.
Qed.

(** X2. The loop of [main] ends without an exception exactly when the
    input file is empty, and then it leaves the process state as it was:
    the empty document is the only one the loop gets through. *)
Theorem echo_loop_succeeds_iff_empty (args : argparse.Namespace)
    (f : FileObj) (w : World) :
  kw_get "input_file" args = Some (VFile f) →
  ((main_body args w).1 = inr () ↔ f_lines f = []) ∧
  (f_lines f = [] → main_body args w = (inr (), w)).
Proof.
  intros Hf. rewrite (main_body_file args f w Hf).
  destruct (f_lines f) as [|l ls]; simpl; split; try done;
    split; discriminate.
Qed.

Lemma echo_loop_succeeds_iff_empty_witness :
  kw_get "input_file" (parsed "empty.md" [] ".")
  = Some (VFile (mkFile "empty.md" [])) ∧
  ((main_body (parsed "empty.md" [] ".") (boot ["empty.md"; "."] ∅ [])).1
   = inr ()
   ↔ f_lines (mkFile "empty.md" []) = []) ∧
  (f_lines (mkFile "empty.md" []) = [] →
   main_body (parsed "empty.md" [] ".") (boot ["empty.md"; "."] ∅ [])
   = (inr (), boot ["empty.md"; "."] ∅ [])).
Proof.
  split; [reflexivity |].
  apply (echo_loop_succeeds_iff_empty (parsed "empty.md" [] ".")
           (mkFile "empty.md" []) (boot ["empty.md"; "."] ∅ []));
    reflexivity.
Defined.

(** X3. The loop of [main] uses [args.input_file] and nothing else of the
    parsed arguments: two argument sets with the same [input_file] give the
    same result and the same final state, whatever their [path]. *)
Theorem echo_loop_ignores_search_path (args args' : argparse.Namespace)
    (w : World) :
  kw_get "input_file" args = kw_get "input_file" args' →
  main_body args w = main_body args' w.
Proof. intros H. unfold main_body, getattr_. by rewrite H. Qed.

Lemma echo_loop_ignores_search_path_witness :
  kw_get "input_file" (parsed "doc.md" include_doc "src")
  = kw_get "input_file" (parsed "doc.md" include_doc "elsewhere") ∧
  main_body (parsed "doc.md" include_doc "src")
    (boot ["doc.md"; "src"] include_files [])
  = main_body (parsed "doc.md" include_doc "elsewhere")
      (boot ["doc.md"; "src"] include_files []).
Proof.
  split; [reflexivity |].
  apply (echo_loop_ignores_search_path
           (parsed "doc.md" include_doc "src")
           (parsed "doc.md" include_doc "elsewhere")
           (boot ["doc.md"; "src"] include_files []));
    reflexivity.
Defined.

(** X4. Whatever the parsed arguments and however long the document, the
    loop of [main] changes neither the arguments nor the files nor standard
    output nor standard error, opens no file, and gets at most one line
    from its input. *)
Theorem echo_loop_footprint (args : argparse.Namespace) (w : World) :
  argv (main_body args w).2 = argv w ∧
  fs (main_body args w).2 = fs w ∧
  stdout (main_body args w).2 = stdout w ∧
  stderr (main_body args w).2 = stderr w ∧
  (trace (main_body args w).2 = trace w ∨
   ∃ l : string, trace (main_body args w).2 = trace w ++ [EvReadLine l]).
Proof.
  destruct (main_body_state args w) as [-> | [l ->]]; simpl.
  - split_and!; try done. by left.
  - split_and!; try done. right. by exists l.
Qed.

(** X5. A run of the script reports its failure on standard error and
    touches nothing else: the files and standard output are as they were,
    and standard error keeps what it held and gains a report whose last
    line names the [SyntaxError]. *)
Theorem run_reports_on_stderr_only (w : World) :
  fs (final (run_script w)) = fs w ∧
  stdout (final (run_script w)) = stdout w ∧
  ∃ r : string,
    stderr (final (run_script w))
    = stderr w +:+ r +:+ ("SyntaxError: 'return' outside function" +:+ nl).
Proof.
  rewrite run_script_outcome. simpl. split_and!; [done | done |].
  by exists EmptyString.
Qed.

(** X6. The declaration of [path] is one [add_argument] accepts: on every
    parser it appends a required positional [path] of type [str], raises
    nothing and leaves the process state alone.  Of the two declarations
    in [parse_args] only that of [input_file] is refused. *)
Theorem path_declaration_accepted (p : argparse.ArgumentParser) (w : World) :
  argparse.add_argument p ["path"]
    [("type", VType_str); ("help", VStr "Search path for include files.")] w
  = (inr (argparse.mkParser (argparse.description p)
            (argparse.actions p
             ++ [argparse.mkAction "path" [] VType_str
                   "Search path for include files." true])),
     w) ∧
  argparse.add_argument p ["input_file"]
    [("type", VFileType_r); ("help", VStr "markdown file.");
     ("required", VBool true)] w
  = (inl required_refused, w).
Proof. split; reflexivity. Qed.
